(** * Portals Market proxy gateway (reload.py): a shallow embedding

    The program is a FastAPI application whose eleven route handlers forward
    one call each to a single upstream through a shared [httpx] client.  The
    handlers are embedded as computations in a small monad that threads the
    log of upstream calls and carries Python exceptions; the decorators
    ([response_model], [Query(default, ge=...)], request-body models) are
    embedded as the wrapper the framework puts around each handler. *)

From Stdlib Require Import ZArith List String Bool Lia.
Import ListNotations.
Open Scope string_scope.
Open Scope list_scope.
Open Scope Z_scope.
Set Warnings "-register-all".

(** ** JSON values, as Python decodes them *)

Module Json.

(** A finite binary64 value [mantissa * 2 ^ exponent]; the gateway never
    computes on floats, it only carries them. *)
Record float64 := { mantissa : Z; exponent : Z }.

(** [JObj] is a Python dict: insertion ordered, looked up by key. *)
Inductive json :=
| JNull
| JBool (b : bool)
| JInt (z : Z)
| JFloat (f : float64)
| JStr (s : string)
| JArr (items : list json)
| JObj (members : list (string * json)).

(** [d.get(k)] on an insertion-ordered dict. *)
Fixpoint dict_get {V : Type} (d : list (string * V)) (k : string) : option V :=
  match d with
  | [] => None
  | (k', v) :: rest => if String.eqb k' k then Some v else dict_get rest k
  end.

(** [d[k] = v]: an existing key keeps its place, a new key goes last. *)
Fixpoint dict_set {V : Type} (d : list (string * V)) (k : string) (v : V)
  : list (string * V) :=
  match d with
  | [] => [(k, v)]
  | (k', v') :: rest =>
      if String.eqb k' k then (k, v) :: rest else (k', v') :: dict_set rest k v
  end.

End Json.
Import Json.

(** ** Pydantic models (the [BaseModel] classes of the source) *)

Module Pydantic.

(** Field annotations used by the source. *)
Inductive ty :=
| TStr
| TInt
| TFloat
| TBool
| TAny
| TDict
| TOptional (t : ty)
| TList (t : ty)
| TModel (fields : list (string * ty)).

(** What differs between pydantic generations and is not fixed by the source:
    - [implicit_none]: whether a field annotated [Optional[...]] or [Any]
      with no default may be left out (it then defaults to [None]) or is
      required;
    - [lax]: the coercion applied to a non-null value that is not of the
      annotated scalar type (a number for [str], a string for [int], ...).
    Everything else is common to both and fixed in [validate]. *)
Record mode := { implicit_none : bool; lax : ty -> json -> option json }.

Definition no_coercion : ty -> json -> option json := fun _ _ => None.

(** [Optional[...]] fields without default are required. *)
Definition required_mode : mode :=
  {| implicit_none := false; lax := no_coercion |}.

(** [Optional[...]] fields without default are filled with [None]. *)
Definition defaulting_mode : mode :=
  {| implicit_none := true; lax := no_coercion |}.

Definition allows_none (t : ty) : bool :=
  match t with
  | TOptional _ | TAny => true
  | _ => false
  end.

Fixpoint traverse {A B : Type} (f : A -> option B) (l : list A) : option (list B) :=
  match l with
  | [] => Some []
  | x :: rest =>
      match f x with
      | Some y =>
          match traverse f rest with
          | Some ys => Some (y :: ys)
          | None => None
          end
      | None => None
      end
  end.

(** Validation of a decoded JSON value against an annotation, returning the
    value the model serialises back to ([None] is a validation error).  A
    model keeps exactly its declared fields, in declaration order. *)
Fixpoint validate (M : mode) (t : ty) (v : json) {struct t} : option json :=
  match t with
  | TAny => Some v
  | TStr =>
      match v with
      | JStr _ => Some v
      | JNull => None
      | _ => lax M TStr v
      end
  | TInt =>
      match v with
      | JInt _ => Some v
      | JNull => None
      | _ => lax M TInt v
      end
  | TFloat =>
      match v with
      | JFloat _ => Some v
      | JNull => None
      | _ => lax M TFloat v
      end
  | TBool =>
      match v with
      | JBool _ => Some v
      | JNull => None
      | _ => lax M TBool v
      end
  | TDict =>
      match v with
      | JObj _ => Some v
      | JNull => None
      | _ => lax M TDict v
      end
  | TOptional t' =>
      match v with
      | JNull => Some JNull
      | _ => validate M t' v
      end
  | TList t' =>
      match v with
      | JArr items => option_map JArr (traverse (validate M t') items)
      | _ => None
      end
  | TModel fields =>
      match v with
      | JObj members =>
          option_map JObj
            ((fix validate_fields (fs : list (string * ty))
                : option (list (string * json)) :=
                match fs with
                | [] => Some []
                | (name, t') :: rest =>
                    match
                      match dict_get members name with
                      | Some x => validate M t' x
                      | None =>
                          if implicit_none M && allows_none t'
                          then Some JNull else None
                      end
                    with
                    | Some x' =>
                        match validate_fields rest with
                        | Some out => Some ((name, x') :: out)
                        | None => None
                        end
                    | None => None
                    end
                end) fields)
      | _ => None
      end
  end.

(** The field-by-field pass of [validate] on a model, by name. *)
Fixpoint validate_fields (M : mode) (members : list (string * json))
  (fs : list (string * ty)) : option (list (string * json)) :=
  match fs with
  | [] => Some []
  | (name, t') :: rest =>
      match
        match dict_get members name with
        | Some x => validate M t' x
        | None => if implicit_none M && allows_none t' then Some JNull else None
        end
      with
      | Some x' =>
          match validate_fields M members rest with
          | Some out => Some ((name, x') :: out)
          | None => None
          end
      | None => None
      end
  end.


End Pydantic.
Import Pydantic.

(** ** The response and payload models of reload.py *)

Definition ConfigResponse : ty :=
  TModel [("commission", TStr); ("user_cashback", TStr);
          ("deposit_wallet", TStr); ("usdt_course", TStr)].

Definition WalletLimits : ty :=
  TModel [("max_per_transaction", TStr); ("max_daily", TStr);
          ("daily_used", TStr); ("daily_remaining", TStr)].

Definition NFTAttribute : ty :=
  TModel [("type", TStr); ("value", TAny); ("rarity_per_mille", TFloat)].

Definition NFTInfo : ty :=
  TModel [("id", TStr); ("name", TStr); ("photo_url", TOptional TStr);
          ("collection_id", TStr); ("external_collection_number", TInt);
          ("status", TStr); ("animation_url", TOptional TStr);
          ("has_animation", TBool); ("attributes", TList NFTAttribute);
          ("emoji_id", TOptional TStr); ("is_owned", TOptional TBool);
          ("floor_price", TOptional TStr)].

Definition WalletAction : ty :=
  TModel [("type", TStr); ("from_wallet", TStr); ("added_at", TStr);
          ("amount", TStr); ("tx_hash", TOptional TStr);
          ("tx_lt", TOptional TStr); ("balance_before", TStr);
          ("balance_after", TStr); ("related_entity_id", TOptional TStr);
          ("related_entity_type", TOptional TStr); ("description", TStr);
          ("nft", TOptional NFTInfo)].

Definition WalletHistoryResponse : ty :=
  TModel [("actions", TList WalletAction)].

Definition WalletBalance : ty :=
  TModel [("balance", TStr); ("frozen_funds", TStr)].

Definition NFTItem : ty :=
  TModel [("id", TStr); ("tg_id", TStr); ("collection_id", TStr);
          ("external_collection_number", TInt); ("name", TStr);
          ("photo_url", TOptional TStr); ("price", TOptional TStr);
          ("attributes", TList NFTAttribute); ("listed_at", TStr);
          ("status", TStr); ("animation_url", TOptional TStr);
          ("emoji_id", TOptional TStr); ("has_animation", TBool);
          ("unlocks_at", TStr)].

Definition NFTListResponse : ty :=
  TModel [("nfts", TList NFTItem)].

Definition Backdrop : ty :=
  TModel [("name", TStr); ("url", TStr); ("centerColor", TInt);
          ("edgeColor", TInt); ("patternColor", TInt); ("textColor", TInt);
          ("rarityPermille", TFloat); ("hex", TDict)].

Definition FloorPricesResponse : ty :=
  TModel [("floorPrices", TDict)].

Definition BuyPayload : ty :=
  TModel [("nft_details", TList TDict)].

Definition WithdrawPayload : ty :=
  TModel [("gift_ids", TList TStr)].

Definition UserActionMetadata : ty :=
  TModel [("seller_revenue", TOptional TStr);
          ("cashback_amount", TOptional TStr)].

Definition UserAction : ty :=
  TModel [("initiator_user_id", TInt); ("nft_id", TStr);
          ("offer_id", TOptional TStr); ("type", TStr); ("amount", TStr);
          ("created_at", TStr); ("referrer_revenue", TOptional TStr);
          ("collection_id", TStr); ("metadata", UserActionMetadata);
          ("nft", TOptional NFTInfo)].

Definition UserActionsResponse : ty :=
  TModel [("actions", TList UserAction)].

(** ** The shared httpx client *)

Module Httpx.

Inductive method := GET | POST.

(** A value of the [params] dict: the handlers put ints and strs in it. *)
Inductive query_value :=
| QInt (z : Z)
| QStr (s : string).

(** One call on the shared client: [client.get(path, params=...)] or
    [client.post(path, json=...)]. *)
Record call := {
  call_method : method;
  call_path : string;
  call_params : list (string * query_value);
  call_json : option json
}.

(** [resp.status_code], and what [resp.json()] returns ([None]: the body
    does not decode and [resp.json()] raises). *)
Record response := { status_code : Z; decoded : option json }.

(** The ways [client.get]/[client.post] raise instead of returning. *)
Inductive transport_error :=
| ConnectError
| ConnectTimeout
| ReadTimeout
| WriteTimeout
| PoolTimeout
| ReadError
| RemoteProtocolError.

Inductive outcome :=
| Responded (r : response)
| Failed (e : transport_error).

(** The upstream, as seen through the client: what each call comes back with. *)
Definition upstream := call -> outcome.

End Httpx.
Import Httpx.

(** ** Handlers: upstream calls and Python exceptions *)

Inductive exn :=
| HTTPException (status : Z) (detail : string)
| TransportError (e : transport_error)
| JSONDecodeError.

Inductive result (A : Type) :=
| Returned (a : A)
| Raised (e : exn).
Arguments Returned {A} a.
Arguments Raised {A} e.

(** A handler body runs against the upstream and extends the log of the calls
    it has issued. *)
Definition handler (A : Type) : Type :=
  upstream -> list call -> result A * list call.

Definition ret {A : Type} (a : A) : handler A :=
  fun _ log => (Returned a, log).

Definition bind {A B : Type} (m : handler A) (k : A -> handler B) : handler B :=
  fun up log =>
    match m up log with
    | (Returned a, log') => k a up log'
    | (Raised e, log') => (Raised e, log')
    end.

Definition raise {A : Type} (e : exn) : handler A :=
  fun _ log => (Raised e, log).

Declare Scope handler_scope.
Delimit Scope handler_scope with handler.
Notation "x <- m ;; k" := (bind m (fun x => k))
  (at level 100, m at next level, right associativity) : handler_scope.
Open Scope handler_scope.

(** [await client.request(...)]: the call is logged, then either a response
    comes back or the transport exception propagates. *)
Definition client_request (c : call) : handler response :=
  fun up log =>
    match up c with
    | Responded r => (Returned r, log ++ [c])
    | Failed e => (Raised (TransportError e), log ++ [c])
    end.

Definition client_get (path : string) (params : list (string * query_value))
  : handler response :=
  client_request
    {| call_method := GET; call_path := path; call_params := params;
       call_json := None |}.

Definition client_post (path : string) (body : json) : handler response :=
  client_request
    {| call_method := POST; call_path := path; call_params := [];
       call_json := Some body |}.

(** [resp.json()] *)
Definition resp_json (resp : response) : handler json :=
  match decoded resp with
  | Some v => ret v
  | None => raise JSONDecodeError
  end.

(** Python truthiness of an [Optional[str]]: [None] and [""] are falsy. *)
Definition truthy (s : option string) : bool :=
  match s with
  | Some s' => negb (String.eqb s' "")
  | None => false
  end.

(** [if value: params[key] = value] *)
Definition set_if_truthy (params : list (string * query_value)) (key : string)
  (value : option string) : list (string * query_value) :=
  match value with
  | Some s => if truthy value then dict_set params key (QStr s) else params
  | None => params
  end.

(** *** The eleven handlers, in source order *)

Definition get_config : handler json :=
  resp <- client_get "/market/config" [] ;;
  if negb (status_code resp =? 200)
  then raise (HTTPException (status_code resp) "Failed to fetch config")
  else resp_json resp.

Definition get_wallet_limits : handler json :=
  resp <- client_get "/users/wallets/limits" [] ;;
  if negb (status_code resp =? 200)
  then raise (HTTPException (status_code resp) "Failed to fetch wallet limits")
  else resp_json resp.

Definition get_wallet_history (offset limit : Z) (types : option string)
  : handler json :=
  let params := [("offset", QInt offset); ("limit", QInt limit)] in
  let params := set_if_truthy params "types" types in
  resp <- client_get "/users/wallets/history" params ;;
  if negb (status_code resp =? 200)
  then raise (HTTPException (status_code resp) "Failed to fetch wallet history")
  else resp_json resp.

Definition get_wallet_balance : handler json :=
  resp <- client_get "/users/wallets/" [] ;;
  if negb (status_code resp =? 200)
  then raise (HTTPException (status_code resp) "Failed to fetch wallet balance")
  else resp_json resp.

Definition list_nfts : handler json :=
  resp <- client_get "/nfts" [] ;;
  if negb (status_code resp =? 200)
  then raise (HTTPException (status_code resp) "Failed to list NFTs")
  else resp_json resp.

Definition search_nfts (offset limit : Z)
  (filter_by_collections filter_by_backdrops filter_by_symbols
   filter_by_models : option string) (sort_by status : string)
  : handler json :=
  let params := [("offset", QInt offset); ("limit", QInt limit);
                 ("sort_by", QStr sort_by); ("status", QStr status)] in
  let params := set_if_truthy params "filter_by_collections" filter_by_collections in
  let params := set_if_truthy params "filter_by_backdrops" filter_by_backdrops in
  let params := set_if_truthy params "filter_by_symbols" filter_by_symbols in
  let params := set_if_truthy params "filter_by_models" filter_by_models in
  resp <- client_get "/nfts/search" params ;;
  if negb (status_code resp =? 200)
  then raise (HTTPException (status_code resp) "Failed to search NFTs")
  else resp_json resp.

Definition get_backdrops : handler json :=
  resp <- client_get "/collections/filters/backdrops" [] ;;
  if negb (status_code resp =? 200)
  then raise (HTTPException (status_code resp) "Failed to fetch backdrops")
  else resp_json resp.

Definition get_backdrops_floor : handler json :=
  resp <- client_get "/collections/filters/backdrops/floor" [] ;;
  if negb (status_code resp =? 200)
  then raise (HTTPException (status_code resp) "Failed to fetch floor prices")
  else resp_json resp.

(** [payload] is [payload.dict()], the validated [BuyPayload]. *)
Definition buy_nfts (payload : json) : handler json :=
  resp <- client_post "/nfts" payload ;;
  if negb ((status_code resp =? 200) || (status_code resp =? 201))
  then raise (HTTPException (status_code resp) "Failed to buy NFT(s)")
  else resp_json resp.

(** [payload] is [payload.dict()], the validated [WithdrawPayload]. *)
Definition withdraw_nfts (payload : json) : handler json :=
  resp <- client_post "/nfts/withdraw" payload ;;
  if negb ((status_code resp =? 200) || (status_code resp =? 201))
  then raise (HTTPException (status_code resp) "Failed to withdraw NFT(s)")
  else resp_json resp.

Definition get_user_actions (offset limit : Z) : handler json :=
  resp <- client_get "/users/actions/"
            [("offset", QInt offset); ("limit", QInt limit)] ;;
  if negb (status_code resp =? 200)
  then raise (HTTPException (status_code resp) "Failed to fetch user actions")
  else resp_json resp.

(** ** The framework around the handlers *)

(** What the caller of the gateway receives. *)
Inductive local_response :=
| JSONResponse (status : Z) (content : json)
    (* the handler returned: the serialised return value *)
| ErrorResponse (status : Z) (detail : string)
    (* the handler raised [HTTPException(status, detail)] *)
| RequestValidationError
    (* a parameter or the body failed its declaration: 422, handler not run *)
| InternalServerError.
    (* any other exception, or a return value that fails [response_model]: 500 *)

Definition status_of (r : local_response) : Z :=
  match r with
  | JSONResponse s _ => s
  | ErrorResponse s _ => s
  | RequestValidationError => 422
  | InternalServerError => 500
  end.

(** One served request: the response and the upstream calls issued for it. *)
Definition endpoint : Type := upstream -> local_response * list call.

(** [Query(default, ge=bound)] on an [int] parameter. *)
Record int_query := { default : Z; ge : Z }.

(** A parameter left out takes the default; a supplied one must meet [ge]. *)
Definition bind_int (q : int_query) (raw : option Z) : option Z :=
  match raw with
  | None => Some (default q)
  | Some v => if ge q <=? v then Some v else None
  end.

(** [Query(default)] on a [str] parameter. *)
Definition bind_str (default : string) (raw : option string) : string :=
  match raw with
  | None => default
  | Some s => s
  end.

Definition reject : endpoint :=
  fun _ => (RequestValidationError, []).

(** Run the handler and render its outcome as the framework does: a returned
    value is validated against [response_model] and sent with status 200
    (a value that fails it is a server error); [HTTPException] is sent with
    its own status and detail; any other exception is a server error. *)
Definition respond (M : mode) (response_model : ty) (h : handler json) : endpoint :=
  fun up =>
    match h up [] with
    | (Returned v, log) =>
        match validate M response_model v with
        | Some out => (JSONResponse 200 out, log)
        | None => (InternalServerError, log)
        end
    | (Raised (HTTPException s d), log) => (ErrorResponse s d, log)
    | (Raised _, log) => (InternalServerError, log)
    end.

(** The routes registered on the router. *)
Inductive route :=
| Config
| WalletsLimits
| WalletsHistory
| WalletsBalance
| Nfts
| NftsSearch
| CollectionsBackdrops
| CollectionsBackdropsFloor
| NftsBuy
| NftsWithdraw
| UsersActions.

(** The [response_model] argument of each route decorator. *)
Definition response_model (r : route) : ty :=
  match r with
  | Config => ConfigResponse
  | WalletsLimits => WalletLimits
  | WalletsHistory => WalletHistoryResponse
  | WalletsBalance => WalletBalance
  | Nfts => NFTListResponse
  | NftsSearch => TAny
  | CollectionsBackdrops => TList Backdrop
  | CollectionsBackdropsFloor => FloorPricesResponse
  | NftsBuy => TAny
  | NftsWithdraw => TAny
  | UsersActions => UserActionsResponse
  end.

(** A local request, with the query parameters as supplied ([None]: left
    out) and the decoded JSON body of the two POST routes. *)
Inductive request :=
| GetConfig
| GetWalletLimits
| GetWalletHistory (offset limit : option Z) (types : option string)
| GetWalletBalance
| ListNfts
| SearchNfts (offset limit : option Z)
    (filter_by_collections filter_by_backdrops filter_by_symbols
     filter_by_models sort_by status : option string)
| GetBackdrops
| GetBackdropsFloor
| BuyNfts (body : json)
| WithdrawNfts (body : json)
| GetUserActions (offset limit : option Z).

Definition route_of (req : request) : route :=
  match req with
  | GetConfig => Config
  | GetWalletLimits => WalletsLimits
  | GetWalletHistory _ _ _ => WalletsHistory
  | GetWalletBalance => WalletsBalance
  | ListNfts => Nfts
  | SearchNfts _ _ _ _ _ _ _ _ => NftsSearch
  | GetBackdrops => CollectionsBackdrops
  | GetBackdropsFloor => CollectionsBackdropsFloor
  | BuyNfts _ => NftsBuy
  | WithdrawNfts _ => NftsWithdraw
  | GetUserActions _ _ => UsersActions
  end.

(** The gateway: each route binds its declared parameters, runs its handler
    and renders the outcome.  The search route is registered twice with the
    same handler and model, which serves it as if registered once.  The two
    POST routes validate the body against their payload model and hand the
    handler [payload.dict()], the validated body. *)
Definition serve (M : mode) (req : request) : endpoint :=
  match req with
  | GetConfig => respond M (response_model Config) get_config
  | GetWalletLimits => respond M (response_model WalletsLimits) get_wallet_limits
  | GetWalletHistory offset limit types =>
      match bind_int {| default := 0; ge := 0 |} offset,
            bind_int {| default := 30; ge := 1 |} limit with
      | Some o, Some l =>
          respond M (response_model WalletsHistory) (get_wallet_history o l types)
      | _, _ => reject
      end
  | GetWalletBalance => respond M (response_model WalletsBalance) get_wallet_balance
  | ListNfts => respond M (response_model Nfts) list_nfts
  | SearchNfts offset limit fc fb fs fm sort_by status =>
      match bind_int {| default := 0; ge := 0 |} offset,
            bind_int {| default := 20; ge := 1 |} limit with
      | Some o, Some l =>
          respond M (response_model NftsSearch)
            (search_nfts o l fc fb fs fm
               (bind_str "price asc" sort_by) (bind_str "listed" status))
      | _, _ => reject
      end
  | GetBackdrops => respond M (response_model CollectionsBackdrops) get_backdrops
  | GetBackdropsFloor =>
      respond M (response_model CollectionsBackdropsFloor) get_backdrops_floor
  | BuyNfts body =>
      match validate M BuyPayload body with
      | Some payload => respond M (response_model NftsBuy) (buy_nfts payload)
      | None => reject
      end
  | WithdrawNfts body =>
      match validate M WithdrawPayload body with
      | Some payload =>
          respond M (response_model NftsWithdraw) (withdraw_nfts payload)
      | None => reject
      end
  | GetUserActions offset limit =>
      match bind_int {| default := 0; ge := 0 |} offset,
            bind_int {| default := 20; ge := 1 |} limit with
      | Some o, Some l =>
          respond M (response_model UsersActions) (get_user_actions o l)
      | _, _ => reject
      end
  end.

(** ** Summary tables of the routes, for the statements below *)

(** The upstream statuses a route treats as success. *)
Definition accepted (r : route) : list Z :=
  match r with
  | NftsBuy | NftsWithdraw => [200; 201]
  | _ => [200]
  end.

(** The message a route attaches to an upstream failure. *)
Definition failure_detail (r : route) : string :=
  match r with
  | Config => "Failed to fetch config"
  | WalletsLimits => "Failed to fetch wallet limits"
  | WalletsHistory => "Failed to fetch wallet history"
  | WalletsBalance => "Failed to fetch wallet balance"
  | Nfts => "Failed to list NFTs"
  | NftsSearch => "Failed to search NFTs"
  | CollectionsBackdrops => "Failed to fetch backdrops"
  | CollectionsBackdropsFloor => "Failed to fetch floor prices"
  | NftsBuy => "Failed to buy NFT(s)"
  | NftsWithdraw => "Failed to withdraw NFT(s)"
  | UsersActions => "Failed to fetch user actions"
  end.

(** Statuses by which a gateway reports that its upstream timed out. *)
Definition timeout_indicating (s : Z) : Prop := s = 504 \/ s = 408.

(** The response is an upstream-error response: a handler-raised
    [HTTPException]. *)
Definition upstream_error (r : local_response) : Prop :=
  exists s d, r = ErrorResponse s d.

(** The request carries a negative offset or a non-positive limit. *)
Definition bad_paging (offset limit : option Z) : Prop :=
  (exists o, offset = Some o /\ o < 0) \/ (exists l, limit = Some l /\ l <= 0).

(** Membership in the accepted set, as a test. *)
Definition is_accepted (r : route) (s : Z) : bool :=
  existsb (Z.eqb s) (accepted r).

(** What a route makes of the outcome of its one upstream call, read off the
    tables above; [serve_inv] shows that [serve] computes exactly this. *)
Definition render (M : mode) (r : route) (o : outcome) : local_response :=
  match o with
  | Failed _ => InternalServerError
  | Responded resp =>
      if is_accepted r (status_code resp) then
        match decoded resp with
        | Some v =>
            match validate M (response_model r) v with
            | Some out => JSONResponse 200 out
            | None => InternalServerError
            end
        | None => InternalServerError
        end
      else ErrorResponse (status_code resp) (failure_detail r)
  end.

(** The value of a key in the query-parameter mapping of a call. *)
Definition sent (c : call) (key : string) : option query_value :=
  dict_get (call_params c) key.

(** ** Sample inputs *)

Definition respond_with (status : Z) (body : json) : upstream :=
  fun _ => Responded {| status_code := status; decoded := Some body |}.

Definition timing_out : upstream := fun _ => Failed ReadTimeout.

Definition default_search : request :=
  SearchNfts None None None None None None None None.

Definition default_search_call : call :=
  {| call_method := GET; call_path := "/nfts/search";
     call_params := [("offset", QInt 0); ("limit", QInt 20);
                     ("sort_by", QStr "price asc"); ("status", QStr "listed")];
     call_json := None |}.

Definition history_call_0_30 : call :=
  {| call_method := GET; call_path := "/users/wallets/history";
     call_params := [("offset", QInt 0); ("limit", QInt 30)];
     call_json := None |}.

Definition empty_history : json := JObj [("actions", JArr [])].

Definition config_call : call :=
  {| call_method := GET; call_path := "/market/config"; call_params := [];
     call_json := None |}.

Definition sample_buy_body : json :=
  JObj [("nft_details",
         JArr [JObj [("id", JStr "abc"); ("price", JStr "1.50")]])].

Definition sample_buy_call : call :=
  {| call_method := POST; call_path := "/nfts"; call_params := [];
     call_json := Some sample_buy_body |}.


(** The declared fields of a model. *)
Definition fields_of (model : ty) : list (string * ty) :=
  match model with
  | TModel fields => fields
  | _ => []
  end.








Definition config_without_commission : json :=
  JObj [("user_cashback", JStr "0.01"); ("deposit_wallet", JStr "EQ-wallet");
        ("usdt_course", JStr "3.20")].



Definition balance_call : call :=
  {| call_method := GET; call_path := "/users/wallets/"; call_params := [];
     call_json := None |}.

(** ** Where each route forwards to *)

(** The client method each handler calls. *)
Definition upstream_method (r : route) : method :=
  match r with
  | NftsBuy | NftsWithdraw => POST
  | _ => GET
  end.

(** The upstream path each handler calls. *)
Definition upstream_path (r : route) : string :=
  match r with
  | Config => "/market/config"
  | WalletsLimits => "/users/wallets/limits"
  | WalletsHistory => "/users/wallets/history"
  | WalletsBalance => "/users/wallets/"
  | Nfts => "/nfts"
  | NftsSearch => "/nfts/search"
  | CollectionsBackdrops => "/collections/filters/backdrops"
  | CollectionsBackdropsFloor => "/collections/filters/backdrops/floor"
  | NftsBuy => "/nfts"
  | NftsWithdraw => "/nfts/withdraw"
  | UsersActions => "/users/actions/"
  end.

(** The routes whose handler passes no [params]. *)
Definition parameterless : list route :=
  [Config; WalletsLimits; WalletsBalance; Nfts; CollectionsBackdrops;
   CollectionsBackdropsFloor].



Definition withdraw_call (payload : json) : call :=
  {| call_method := POST; call_path := "/nfts/withdraw"; call_params := [];
     call_json := Some payload |}.

Definition backdrops_call : call :=
  {| call_method := GET; call_path := "/collections/filters/backdrops";
     call_params := []; call_json := None |}.

Definition nfts_call : call :=
  {| call_method := GET; call_path := "/nfts"; call_params := [];
     call_json := None |}.

(** An upstream whose body is not JSON. *)
Definition respond_undecodable (status : Z) : upstream :=
  fun _ => Responded {| status_code := status; decoded := None |}.

Definition balance_with_extras : list (string * json) :=
  [("currency", JStr "TON"); ("frozen_funds", JStr "0"); ("balance", JStr "1.50")].

(** ** The characterisation of [serve] *)

Lemma validate_model (M : mode) (fs : list (string * ty)) (members : list (string * json)) :
  validate M (TModel fs) (JObj members) = option_map JObj (validate_fields M members fs).
Proof.
  cbn [validate]. f_equal.
  induction fs as [| [name t] fs IH]; cbn [validate_fields]; [reflexivity |].
  rewrite IH. reflexivity.
Qed.

Lemma is_accepted_200 (r : route) (s : Z) :
  accepted r = [200] -> is_accepted r s = (s =? 200).
Proof.
  intros H. unfold is_accepted. rewrite H. cbn. apply orb_false_r.
Qed.

Lemma is_accepted_200_201 (r : route) (s : Z) :
  accepted r = [200; 201] -> is_accepted r s = ((s =? 200) || (s =? 201)).
Proof.
  intros H. unfold is_accepted. rewrite H. cbn. rewrite orb_false_r. reflexivity.
Qed.

Lemma is_accepted_spec (r : route) (s : Z) :
  is_accepted r s = true <-> In s (accepted r).
Proof.
  unfold is_accepted. rewrite existsb_exists. split.
  - intros [x [Hin Heq]]. apply Z.eqb_eq in Heq. subst. exact Hin.
  - intros Hin. exists s. split; [exact Hin | apply Z.eqb_refl].
Qed.

(** A handler that issues the single call [c], tests the status with [ok]
    and raises with [detail], rendered by the framework. *)
Lemma respond_single_call (M : mode) (r : route) (c : call) (up : upstream)
  (h : handler json) :
  (forall log,
      h up log =
      match up c with
      | Responded resp =>
          if negb (is_accepted r (status_code resp))
          then (Raised (HTTPException (status_code resp) (failure_detail r)), log ++ [c])
          else resp_json resp up (log ++ [c])
      | Failed e => (Raised (TransportError e), log ++ [c])
      end) ->
  respond M (response_model r) h up = (render M r (up c), [c]).
Proof.
  intros Hh. unfold respond, render. rewrite Hh.
  destruct (up c) as [resp | e]; cbn; [| reflexivity].
  destruct (is_accepted r (status_code resp)); cbn; [| reflexivity].
  unfold resp_json. destruct (decoded resp) as [v |]; cbn; [| reflexivity].
  destruct (validate M (response_model r) v); reflexivity.
Qed.

Ltac single_call R :=
  intros log; unfold bind, client_get, client_post, client_request, raise;
  lazymatch goal with
  | |- ?lhs = match ?u ?ev with _ => _ end =>
      match lhs with
      | context [u ?c] => unify ev c; destruct (u c) as [resp | e]; [| reflexivity]
      end
  end;
  first [ rewrite (is_accepted_200 R) by reflexivity
        | rewrite (is_accepted_200_201 R) by reflexivity ];
  match goal with
  | |- context [negb ?b] => destruct b; reflexivity
  end.

(** Every request is either rejected before any upstream call, or answered
    from the outcome of exactly one upstream call. *)
Lemma serve_cases (M : mode) (req : request) (up : upstream) :
  serve M req up = (RequestValidationError, []) \/
  exists c, serve M req up = (render M (route_of req) (up c), [c]).
Proof.
  destruct req; cbn [serve route_of].
  - right. eexists. apply respond_single_call. unfold get_config. single_call Config.
  - right. eexists. apply respond_single_call. unfold get_wallet_limits.
    single_call WalletsLimits.
  - destruct (bind_int _ offset); [| left; reflexivity].
    destruct (bind_int _ limit); [| left; reflexivity].
    right. eexists. apply respond_single_call. unfold get_wallet_history.
    single_call WalletsHistory.
  - right. eexists. apply respond_single_call. unfold get_wallet_balance.
    single_call WalletsBalance.
  - right. eexists. apply respond_single_call. unfold list_nfts. single_call Nfts.
  - destruct (bind_int _ offset); [| left; reflexivity].
    destruct (bind_int _ limit); [| left; reflexivity].
    right. eexists. apply respond_single_call. unfold search_nfts.
    single_call NftsSearch.
  - right. eexists. apply respond_single_call. unfold get_backdrops.
    single_call CollectionsBackdrops.
  - right. eexists. apply respond_single_call. unfold get_backdrops_floor.
    single_call CollectionsBackdropsFloor.
  - destruct (validate M BuyPayload body); [| left; reflexivity].
    right. eexists. apply respond_single_call. unfold buy_nfts. single_call NftsBuy.
  - destruct (validate M WithdrawPayload body); [| left; reflexivity].
    right. eexists. apply respond_single_call. unfold withdraw_nfts.
    single_call NftsWithdraw.
  - destruct (bind_int _ offset); [| left; reflexivity].
    destruct (bind_int _ limit); [| left; reflexivity].
    right. eexists. apply respond_single_call. unfold get_user_actions.
    single_call UsersActions.
Qed.

(** The call found in the log is the one call the response was made from. *)
Lemma serve_inv (M : mode) (req : request) (up : upstream) (c : call) :
  In c (snd (serve M req up)) ->
  serve M req up = (render M (route_of req) (up c), [c]).
Proof.
  intros Hin. destruct (serve_cases M req up) as [H | [c' H]]; rewrite H in Hin |- *.
  - destruct Hin.
  - destruct Hin as [-> | []]. reflexivity.
Qed.

(** ** Transport errors *)

(** No handler catches what the client raises: the transport exception
    leaves the handler as it is. *)
Lemma client_request_failure_propagates (A : Type) (c : call) (k : response -> handler A)
  (up : upstream) (e : transport_error) (log : list call) :
  up c = Failed e ->
  bind (client_request c) k up log = (Raised (TransportError e), log ++ [c]).
Proof.
  intros H. unfold bind, client_request. rewrite H. reflexivity.
Qed.

(** C1, as amended: on every route, when the upstream call fails with a
    transport error (unreachable, timed out) the gateway has issued that one
    call and the caller receives the generic internal-server-error response
    with status 500: not an upstream-error response, and no
    timeout-indicating status. *)
Theorem transport_error_is_internal_server_error
  (M : mode) (req : request) (up : upstream) (c : call) (e : transport_error) :
  In c (snd (serve M req up)) ->
  up c = Failed e ->
  serve M req up = (InternalServerError, [c])
  /\ status_of (fst (serve M req up)) = 500
  /\ ~ upstream_error (fst (serve M req up))
  /\ ~ timeout_indicating (status_of (fst (serve M req up))).
Proof.
  intros Hin Hup. rewrite (serve_inv M req up c Hin). unfold render. rewrite Hup.
  cbn. repeat split.
  - intros [s [d H]]. discriminate H.
  - unfold timeout_indicating. lia.
Qed.

Lemma transport_error_is_internal_server_error_witness :
  serve required_mode default_search timing_out
  = (InternalServerError, [default_search_call])
  /\ status_of (fst (serve required_mode default_search timing_out)) = 500
  /\ ~ upstream_error (fst (serve required_mode default_search timing_out))
  /\ ~ timeout_indicating
       (status_of (fst (serve required_mode default_search timing_out))).
Proof.
  apply (transport_error_is_internal_server_error
           required_mode default_search timing_out default_search_call ReadTimeout).
  - cbn. left. reflexivity.
  - reflexivity.
Defined.

(** C1, as stated, fails: a read timeout on the upstream call of
    /nfts/search is answered with the generic 500 response, which is neither
    an upstream-error response nor timeout-indicating. *)
Lemma search_timeout_is_not_an_upstream_error :
  fst (serve required_mode default_search timing_out) = InternalServerError
  /\ ~ (upstream_error (fst (serve required_mode default_search timing_out))
        /\ timeout_indicating
             (status_of (fst (serve required_mode default_search timing_out)))).
Proof.
  split; [reflexivity |].
  intros [[s [d H]] _]. cbn in H. discriminate H.
Qed.

(** ** Paging validation *)

Lemma bad_paging_unbound (offset limit : option Z) (d_off d_lim : Z) :
  bad_paging offset limit ->
  bind_int {| default := d_off; ge := 0 |} offset = None \/
  bind_int {| default := d_lim; ge := 1 |} limit = None.
Proof.
  intros [[o [-> Ho]] | [l [-> Hl]]]; [left | right]; cbn.
  - destruct (Z.leb_spec 0 o); [lia | reflexivity].
  - destruct (Z.leb_spec 1 l); [lia | reflexivity].
Qed.

(** C2: on /wallets/history, /nfts/search and /users/actions a request with
    a negative offset or a non-positive limit is answered with the local
    validation error (422) and no upstream call is issued. *)
Theorem bad_paging_rejected_without_upstream_call
  (M : mode) (up : upstream) (offset limit : option Z) :
  bad_paging offset limit ->
  (forall types,
      serve M (GetWalletHistory offset limit types) up
      = (RequestValidationError, []))
  /\ (forall fc fb fs fm sort_by status,
         serve M (SearchNfts offset limit fc fb fs fm sort_by status) up
         = (RequestValidationError, []))
  /\ serve M (GetUserActions offset limit) up = (RequestValidationError, [])
  /\ status_of RequestValidationError = 422.
Proof.
  intros Hbad. repeat split; intros; cbn [serve].
  - destruct (bad_paging_unbound offset limit 0 30 Hbad) as [-> | ->];
      [| destruct (bind_int _ offset)]; reflexivity.
  - destruct (bad_paging_unbound offset limit 0 20 Hbad) as [-> | ->];
      [| destruct (bind_int _ offset)]; reflexivity.
  - destruct (bad_paging_unbound offset limit 0 20 Hbad) as [-> | ->];
      [| destruct (bind_int _ offset)]; reflexivity.
Qed.

Lemma bad_paging_rejected_without_upstream_call_witness :
  (forall types,
      serve required_mode (GetWalletHistory (Some (-1)) None types)
        (respond_with 200 empty_history)
      = (RequestValidationError, []))
  /\ (forall fc fb fs fm sort_by status,
         serve required_mode (SearchNfts (Some (-1)) None fc fb fs fm sort_by status)
           (respond_with 200 empty_history)
         = (RequestValidationError, []))
  /\ serve required_mode (GetUserActions (Some (-1)) None)
       (respond_with 200 empty_history)
     = (RequestValidationError, [])
  /\ status_of RequestValidationError = 422.
Proof.
  apply (bad_paging_rejected_without_upstream_call
           required_mode (respond_with 200 empty_history) (Some (-1)) None).
  left. exists (-1). split; [reflexivity | lia].
Defined.

(** ** Upstream statuses *)





(** ** The upstream request *)

(** A handler that issues one call and then only inspects the response
    leaves exactly that call in the log. *)
Lemma respond_log (M : mode) (t : ty) (c : call) (k : response -> handler json)
  (up : upstream) :
  (forall resp log, snd (k resp up log) = log) ->
  snd (respond M t (bind (client_request c) k) up) = [c].
Proof.
  intros Hk. unfold respond, bind, client_request.
  destruct (up c) as [resp | e]; cbn; [| reflexivity].
  specialize (Hk resp [c]). destruct (k resp up [c]) as [[v | ex] log]; cbn in Hk; subst.
  - destruct (validate M t v); reflexivity.
  - destruct ex; reflexivity.
Qed.

Lemma guard_keeps_log (ok : bool) (ex : exn) (resp : response) (up : upstream)
  (log : list call) :
  snd ((if ok then raise ex else resp_json resp) up log) = log.
Proof.
  destruct ok; [reflexivity |].
  unfold resp_json. destruct (decoded resp); reflexivity.
Qed.

Lemma wallet_history_log (M : mode) (t : ty) (o l : Z) (types : option string)
  (up : upstream) :
  snd (respond M t (get_wallet_history o l types) up)
  = [{| call_method := GET; call_path := "/users/wallets/history";
        call_params :=
          set_if_truthy [("offset", QInt o); ("limit", QInt l)] "types" types;
        call_json := None |}].
Proof.
  unfold get_wallet_history, client_get. apply respond_log.
  intros. apply guard_keeps_log.
Qed.

Lemma search_log (M : mode) (t : ty) (o l : Z) (fc fb fs fm : option string)
  (sort_by status : string) (up : upstream) :
  snd (respond M t (search_nfts o l fc fb fs fm sort_by status) up)
  = [{| call_method := GET; call_path := "/nfts/search";
        call_params :=
          set_if_truthy
            (set_if_truthy
               (set_if_truthy
                  (set_if_truthy
                     [("offset", QInt o); ("limit", QInt l);
                      ("sort_by", QStr sort_by); ("status", QStr status)]
                     "filter_by_collections" fc)
                  "filter_by_backdrops" fb)
               "filter_by_symbols" fs)
            "filter_by_models" fm;
        call_json := None |}].
Proof.
  unfold search_nfts, client_get. apply respond_log.
  intros. apply guard_keeps_log.
Qed.

Lemma buy_log (M : mode) (t : ty) (payload : json) (up : upstream) :
  snd (respond M t (buy_nfts payload) up)
  = [{| call_method := POST; call_path := "/nfts"; call_params := [];
        call_json := Some payload |}].
Proof.
  unfold buy_nfts, client_post. apply respond_log.
  intros. apply guard_keeps_log.
Qed.

Lemma good_paging_bound (offset limit : option Z) (d_off d_lim : Z) :
  ~ bad_paging offset limit ->
  exists o l,
    bind_int {| default := d_off; ge := 0 |} offset = Some o /\
    bind_int {| default := d_lim; ge := 1 |} limit = Some l.
Proof.
  intros Hgood. unfold bind_int; cbn.
  assert (Ho : exists o, match offset with
                         | Some v => if 0 <=? v then Some v else None
                         | None => Some d_off
                         end = Some o).
  { destruct offset as [v |]; [| eauto].
    destruct (Z.leb_spec 0 v); [eauto |].
    exfalso. apply Hgood. left. exists v. split; [reflexivity | lia]. }
  assert (Hl : exists l, match limit with
                         | Some v => if 1 <=? v then Some v else None
                         | None => Some d_lim
                         end = Some l).
  { destruct limit as [v |]; [| eauto].
    destruct (Z.leb_spec 1 v); [eauto |].
    exfalso. apply Hgood. right. exists v. split; [reflexivity | lia]. }
  destruct Ho as [o Ho], Hl as [l Hl]. exists o, l. split; assumption.
Qed.

(** C5: on GET /wallets/history and GET /nfts/search, a request with
    well-formed paging issues one upstream call; in its query-parameter
    mapping every optional filter the request leaves out is absent, offset
    and limit (and, for the search, sort_by and status) are always present,
    and sort_by and status are "price asc" and "listed" when not supplied. *)
Theorem absent_filters_are_omitted
  (M : mode) (up : upstream) (offset limit : option Z) :
  (forall types,
      (~ bad_paging offset limit ->
       exists c, snd (serve M (GetWalletHistory offset limit types) up) = [c])
      /\ forall c,
        In c (snd (serve M (GetWalletHistory offset limit types) up)) ->
        (exists o l,
            bind_int {| default := 0; ge := 0 |} offset = Some o
            /\ bind_int {| default := 30; ge := 1 |} limit = Some l
            /\ sent c "offset" = Some (QInt o)
            /\ sent c "limit" = Some (QInt l))
        /\ (types = None -> sent c "types" = None))
  /\
  (forall fc fb fs fm sort_by status,
      (~ bad_paging offset limit ->
       exists c,
         snd (serve M (SearchNfts offset limit fc fb fs fm sort_by status) up) = [c])
      /\ forall c,
        In c (snd (serve M (SearchNfts offset limit fc fb fs fm sort_by status) up)) ->
        (exists o l,
            bind_int {| default := 0; ge := 0 |} offset = Some o
            /\ bind_int {| default := 20; ge := 1 |} limit = Some l
            /\ sent c "offset" = Some (QInt o)
            /\ sent c "limit" = Some (QInt l))
        /\ sent c "sort_by" = Some (QStr (bind_str "price asc" sort_by))
        /\ sent c "status" = Some (QStr (bind_str "listed" status))
        /\ (sort_by = None -> sent c "sort_by" = Some (QStr "price asc"))
        /\ (status = None -> sent c "status" = Some (QStr "listed"))
        /\ (fc = None -> sent c "filter_by_collections" = None)
        /\ (fb = None -> sent c "filter_by_backdrops" = None)
        /\ (fs = None -> sent c "filter_by_symbols" = None)
        /\ (fm = None -> sent c "filter_by_models" = None)).
Proof.
  split.
  - intros types. split.
    + intros Hgood.
      destruct (good_paging_bound offset limit 0 30 Hgood) as [o [l [Ho Hl]]].
      cbn [serve]. rewrite Ho, Hl. rewrite wallet_history_log. eauto.
    + intros c. cbn [serve].
      destruct (bind_int _ offset) as [o |]; [| intros []].
      destruct (bind_int _ limit) as [l |]; [| intros []].
      rewrite wallet_history_log. intros [<- | []].
      unfold sent. cbn [call_params]. split.
      * exists o, l. destruct types as [[| ? ?] |]; cbn; auto.
      * intros ->. reflexivity.
  - intros fc fb fs fm sort_by status. split.
    + intros Hgood.
      destruct (good_paging_bound offset limit 0 20 Hgood) as [o [l [Ho Hl]]].
      cbn [serve]. rewrite Ho, Hl. rewrite search_log. eauto.
    + intros c. cbn [serve].
      destruct (bind_int _ offset) as [o |]; [| intros []].
      destruct (bind_int _ limit) as [l |]; [| intros []].
      rewrite search_log. intros [<- | []].
      unfold sent. cbn [call_params]. split.
      * exists o, l.
        destruct fc as [[| ? ?] |], fb as [[| ? ?] |], fs as [[| ? ?] |],
          fm as [[| ? ?] |]; cbn; auto.
      * destruct fc as [[| ? ?] |], fb as [[| ? ?] |], fs as [[| ? ?] |],
          fm as [[| ? ?] |]; cbn;
          (repeat split; intros; try discriminate; subst; reflexivity).
Qed.

Lemma absent_filters_are_omitted_witness :
  sent default_search_call "sort_by" = Some (QStr "price asc")
  /\ sent default_search_call "status" = Some (QStr "listed")
  /\ sent default_search_call "filter_by_models" = None.
Proof.
  destruct (proj2 (absent_filters_are_omitted required_mode timing_out None None)
              None None None None None None) as [_ H].
  destruct (H default_search_call (or_introl eq_refl))
    as [_ [_ [_ [Hsort [Hstatus [_ [_ [_ Hm]]]]]]]].
  split; [| split].
  - apply Hsort. reflexivity.
  - apply Hstatus. reflexivity.
  - apply Hm. reflexivity.
Defined.

(** C6: GET /wallets/history with offset=0 and limit=30, the upstream
    answering that call with status 200 and body {"actions": []}, is
    answered locally with {"actions": []} and status 200. *)
Theorem empty_wallet_history_scenario (M : mode) (up : upstream) :
  up history_call_0_30
  = Responded {| status_code := 200; decoded := Some empty_history |} ->
  serve M (GetWalletHistory (Some 0) (Some 30) None) up
  = (JSONResponse 200 empty_history, [history_call_0_30])
  /\ status_of (fst (serve M (GetWalletHistory (Some 0) (Some 30) None) up)) = 200.
Proof.
  intros Hup.
  assert (Hin : In history_call_0_30
                  (snd (serve M (GetWalletHistory (Some 0) (Some 30) None) up))).
  { change (serve M (GetWalletHistory (Some 0) (Some 30) None) up)
      with (respond M (response_model WalletsHistory)
              (get_wallet_history 0 30 None) up).
    rewrite wallet_history_log. left. reflexivity. }
  rewrite (serve_inv _ _ _ _ Hin). unfold render. rewrite Hup.
  split; reflexivity.
Qed.

Lemma empty_wallet_history_scenario_witness :
  serve defaulting_mode (GetWalletHistory (Some 0) (Some 30) None)
    (respond_with 200 empty_history)
  = (JSONResponse 200 empty_history, [history_call_0_30]).
Proof.
  apply (empty_wallet_history_scenario defaulting_mode (respond_with 200 empty_history)).
  reflexivity.
Defined.

(** C8: on GET /wallets/history and GET /nfts/search an optional filter
    supplied as the empty string is treated exactly like one left out: the
    request is served identically, and the filter is absent from the
    upstream query-parameter mapping. *)
Theorem empty_string_filter_is_absent
  (M : mode) (up : upstream) (offset limit : option Z) :
  serve M (GetWalletHistory offset limit (Some "")) up
  = serve M (GetWalletHistory offset limit None) up
  /\ (forall fc fb fs fm sort_by status,
         serve M (SearchNfts offset limit (Some "") fb fs fm sort_by status) up
         = serve M (SearchNfts offset limit None fb fs fm sort_by status) up
         /\ serve M (SearchNfts offset limit fc (Some "") fs fm sort_by status) up
            = serve M (SearchNfts offset limit fc None fs fm sort_by status) up
         /\ serve M (SearchNfts offset limit fc fb (Some "") fm sort_by status) up
            = serve M (SearchNfts offset limit fc fb None fm sort_by status) up
         /\ serve M (SearchNfts offset limit fc fb fs (Some "") sort_by status) up
            = serve M (SearchNfts offset limit fc fb fs None sort_by status) up)
  /\ (forall c,
         In c (snd (serve M (GetWalletHistory offset limit (Some "")) up)) ->
         sent c "types" = None)
  /\ (forall fc fb fs fm sort_by status c,
         In c (snd (serve M (SearchNfts offset limit fc fb fs fm sort_by status) up)) ->
         (fc = Some "" -> sent c "filter_by_collections" = None)
         /\ (fb = Some "" -> sent c "filter_by_backdrops" = None)
         /\ (fs = Some "" -> sent c "filter_by_symbols" = None)
         /\ (fm = Some "" -> sent c "filter_by_models" = None)).
Proof.
  split; [reflexivity |]. split; [| split].
  - intros. repeat split; reflexivity.
  - intros c. cbn [serve].
    destruct (bind_int _ offset) as [o |]; [| intros []].
    destruct (bind_int _ limit) as [l |]; [| intros []].
    rewrite wallet_history_log. intros [<- | []]. reflexivity.
  - intros fc fb fs fm sort_by status c. cbn [serve].
    destruct (bind_int _ offset) as [o |]; [| intros []].
    destruct (bind_int _ limit) as [l |]; [| intros []].
    rewrite search_log. intros [<- | []].
    unfold sent. cbn [call_params].
    destruct fc as [[| ? ?] |], fb as [[| ? ?] |], fs as [[| ? ?] |],
      fm as [[| ? ?] |]; cbn;
      (repeat split; intros; try discriminate; reflexivity).
Qed.

Lemma empty_string_filter_is_absent_witness :
  sent default_search_call "filter_by_backdrops" = None.
Proof.
  destruct (empty_string_filter_is_absent required_mode timing_out None None)
    as [_ [_ [_ H]]].
  destruct (H None (Some "") None None None None default_search_call
              (or_introl eq_refl)) as [_ [Hb _]].
  apply Hb. reflexivity.
Defined.

(** ** The buy payload *)

Lemma dict_entries_pass (M : mode) (entries : list (list (string * json))) :
  traverse (validate M TDict) (map JObj entries) = Some (map JObj entries).
Proof.
  induction entries as [| e entries IH]; cbn; [reflexivity |].
  cbn in IH. rewrite IH. reflexivity.
Qed.

(** C10: on POST /nfts/buy the entries of nft_details may be any JSON
    objects (nothing checks for id or price), the body is accepted, and the
    body forwarded upstream is exactly the object {"nft_details": [...]}
    holding those entries unchanged. *)
Theorem buy_forwards_entries_unchanged
  (M : mode) (up : upstream) (members : list (string * json))
  (entries : list (list (string * json))) :
  dict_get members "nft_details" = Some (JArr (map JObj entries)) ->
  validate M BuyPayload (JObj members)
  = Some (JObj [("nft_details", JArr (map JObj entries))])
  /\ snd (serve M (BuyNfts (JObj members)) up)
     = [{| call_method := POST; call_path := "/nfts"; call_params := [];
           call_json := Some (JObj [("nft_details", JArr (map JObj entries))]) |}].
Proof.
  intros Hget.
  assert (Hval : validate M BuyPayload (JObj members)
                 = Some (JObj [("nft_details", JArr (map JObj entries))])).
  { unfold BuyPayload. rewrite validate_model. cbn [validate_fields].
    rewrite Hget.
    change (validate M (TList TDict) (JArr (map JObj entries)))
      with (option_map JArr (traverse (validate M TDict) (map JObj entries))).
    rewrite dict_entries_pass. reflexivity. }
  split; [exact Hval |].
  cbn [serve]. rewrite Hval. apply buy_log.
Qed.

Lemma buy_forwards_entries_unchanged_witness :
  snd (serve required_mode
         (BuyNfts (JObj [("nft_details", JArr [JObj [("sku", JInt 7)]; JObj []])]))
         timing_out)
  = [{| call_method := POST; call_path := "/nfts"; call_params := [];
        call_json :=
          Some (JObj [("nft_details", JArr [JObj [("sku", JInt 7)]; JObj []])]) |}].
Proof.
  apply (proj2 (buy_forwards_entries_unchanged required_mode timing_out
                  [("nft_details", JArr [JObj [("sku", JInt 7)]; JObj []])]
                  [[("sku", JInt 7)]; []] eq_refl)).
Defined.

(** ** Response shapes *)

Lemma accepts_200 (r : route) : is_accepted r 200 = true.
Proof. destruct r; reflexivity. Qed.

(** A field that may not be [None] and is missing fails the model. *)
Lemma validate_fields_missing_required (M : mode) (members : list (string * json))
  (fs : list (string * ty)) (name : string) (t : ty) :
  In (name, t) fs ->
  allows_none t = false ->
  dict_get members name = None ->
  validate_fields M members fs = None.
Proof.
  intros Hin Hreq Hmiss. induction fs as [| [n t0] fs IH]; [destruct Hin |].
  cbn [validate_fields]. destruct Hin as [Heq | Hin].
  - injection Heq as -> ->. rewrite Hmiss, Hreq, andb_false_r. reflexivity.
  - rewrite (IH Hin).
    destruct (match dict_get members n with
              | Some x => validate M t0 x
              | None => if implicit_none M && allows_none t0 then Some JNull else None
              end); reflexivity.
Qed.


(** C9: on every route, an upstream 200 whose decoded body does not
    validate against the route's declared response model (in particular a
    JSON object that lacks a field the model requires) is answered with the
    internal server error, not with the upstream body. *)
Theorem nonconforming_body_is_internal_server_error
  (M : mode) (req : request) (up : upstream) (c : call) (r : response) (v : json) :
  In c (snd (serve M req up)) ->
  up c = Responded r ->
  status_code r = 200 ->
  decoded r = Some v ->
  (validate M (response_model (route_of req)) v = None ->
   fst (serve M req up) = InternalServerError)
  /\ (forall fs members name t,
         response_model (route_of req) = TModel fs ->
         v = JObj members ->
         In (name, t) fs ->
         allows_none t = false ->
         dict_get members name = None ->
         fst (serve M req up) = InternalServerError).
Proof.
  intros Hin Hup Hstatus Hbody.
  assert (Hfail : validate M (response_model (route_of req)) v = None ->
                  fst (serve M req up) = InternalServerError).
  { intros Hval. rewrite (serve_inv M req up c Hin). cbn [fst].
    unfold render. rewrite Hup, Hstatus, accepts_200, Hbody, Hval. reflexivity. }
  split; [exact Hfail |].
  intros fs members name t Hmodel -> Hfield Hreq Hmiss. apply Hfail.
  rewrite Hmodel, validate_model.
  rewrite (validate_fields_missing_required M members fs name t Hfield Hreq Hmiss).
  reflexivity.
Qed.

Lemma nonconforming_body_is_internal_server_error_witness :
  fst (serve defaulting_mode GetConfig (respond_with 200 config_without_commission))
  = InternalServerError.
Proof.
  refine (proj2 (nonconforming_body_is_internal_server_error defaulting_mode
                   GetConfig (respond_with 200 config_without_commission)
                   config_call
                   {| status_code := 200;
                      decoded := Some config_without_commission |}
                   config_without_commission _ _ _ _)
            _ _ "commission" TStr eq_refl eq_refl _ _ _).
  - cbn. left. reflexivity.
  - reflexivity.
  - reflexivity.
  - reflexivity.
  - cbn. left. reflexivity.
  - reflexivity.
  - reflexivity.
Defined.





(** ** Further properties of the gateway *)

Lemma render_is_not_a_validation_error (M : mode) (r : route) (o : outcome) :
  render M r o <> RequestValidationError.
Proof.
  unfold render. destruct o as [resp | e]; [| discriminate].
  destruct (is_accepted r (status_code resp)); [| discriminate].
  destruct (decoded resp) as [v |]; [| discriminate].
  destruct (validate M (response_model r) v); discriminate.
Qed.

(** X1: a request is answered from at most one upstream call (nothing is
    retried), and it is answered with the validation error exactly when no
    upstream call was issued. *)
Theorem validation_error_iff_no_upstream_call
  (M : mode) (req : request) (up : upstream) :
  (List.length (snd (serve M req up)) <= 1)%nat
  /\ (fst (serve M req up) = RequestValidationError <-> snd (serve M req up) = []).
Proof.
  destruct (serve_cases M req up) as [H | [c H]]; rewrite H; cbn [fst snd List.length].
  - split; [lia | tauto].
  - split; [lia |]. split.
    + intros Hr. exfalso. exact (render_is_not_a_validation_error _ _ _ Hr).
    + discriminate.
Qed.


(** X3: when the upstream answers with an accepted status but a body that
    does not decode as JSON, [resp.json()] raises and the caller receives
    the internal server error. *)
Theorem undecodable_body_is_internal_server_error
  (M : mode) (req : request) (up : upstream) (c : call) (r : response) :
  In c (snd (serve M req up)) ->
  up c = Responded r ->
  In (status_code r) (accepted (route_of req)) ->
  decoded r = None ->
  serve M req up = (InternalServerError, [c]).
Proof.
  intros Hin Hup Hacc Hbody. rewrite (serve_inv M req up c Hin).
  unfold render. rewrite Hup. apply is_accepted_spec in Hacc.
  rewrite Hacc, Hbody. reflexivity.
Qed.

Lemma undecodable_body_is_internal_server_error_witness :
  serve required_mode GetConfig (respond_undecodable 200)
  = (InternalServerError, [config_call]).
Proof.
  apply (undecodable_body_is_internal_server_error required_mode GetConfig
           (respond_undecodable 200) config_call
           {| status_code := 200; decoded := None |}).
  - cbn. left. reflexivity.
  - reflexivity.
  - cbn. left. reflexivity.
  - reflexivity.
Defined.



Ltac issued_call H :=
  rewrite ?wallet_history_log, ?search_log, ?buy_log in H;
  unfold get_config, get_wallet_limits, get_wallet_balance, list_nfts,
    get_backdrops, get_backdrops_floor, withdraw_nfts, get_user_actions,
    client_get, client_post in H;
  rewrite ?respond_log in H by (intros; apply guard_keeps_log);
  destruct H as [<- | []].

(** X5: the upstream call of a route uses the route's own method and path;
    a GET call carries no JSON body, a POST call carries a JSON body and no
    query parameters, and the six routes without parameters send none. *)
Theorem upstream_call_target
  (M : mode) (req : request) (up : upstream) (c : call) :
  In c (snd (serve M req up)) ->
  call_method c = upstream_method (route_of req)
  /\ call_path c = upstream_path (route_of req)
  /\ (upstream_method (route_of req) = GET -> call_json c = None)
  /\ (upstream_method (route_of req) = POST ->
      call_params c = [] /\ call_json c <> None)
  /\ (In (route_of req) parameterless -> call_params c = []).
Proof.
  intros Hin. destruct req; cbn [serve route_of] in *;
    repeat match type of Hin with
           | context [bind_int ?q ?raw] => destruct (bind_int q raw); [| destruct Hin]
           | context [validate ?M ?t ?b] =>
               match t with
               | BuyPayload => destruct (validate M t b); [| destruct Hin]
               | WithdrawPayload => destruct (validate M t b); [| destruct Hin]
               end
           end;
    issued_call Hin; cbn;
    (repeat split; try reflexivity; try discriminate;
     intros; cbn in *; intuition discriminate).
Qed.

Lemma upstream_call_target_witness :
  call_method sample_buy_call = POST
  /\ call_path sample_buy_call = "/nfts"
  /\ (upstream_method NftsBuy = GET -> call_json sample_buy_call = None)
  /\ (upstream_method NftsBuy = POST ->
      call_params sample_buy_call = [] /\ call_json sample_buy_call <> None)
  /\ (In NftsBuy parameterless -> call_params sample_buy_call = []).
Proof.
  apply (upstream_call_target required_mode (BuyNfts sample_buy_body) timing_out
           sample_buy_call).
  cbn. left. reflexivity.
Defined.

(** ** Paging bounds *)






(** ** Building the query parameters *)

Lemma dict_get_set_same {V : Type} (d : list (string * V)) (k : string) (v : V) :
  dict_get (dict_set d k v) k = Some v.
Proof.
  induction d as [| [k' v'] d IH]; cbn.
  - rewrite String.eqb_refl. reflexivity.
  - destruct (String.eqb_spec k' k) as [-> | Hne]; cbn.
    + rewrite String.eqb_refl. reflexivity.
    + destruct (String.eqb_spec k' k); [contradiction | exact IH].
Qed.

Lemma dict_get_set_other {V : Type} (d : list (string * V)) (k k' : string) (v : V) :
  k' <> k -> dict_get (dict_set d k v) k' = dict_get d k'.
Proof.
  intros Hne. induction d as [| [k0 v0] d IH]; cbn.
  - destruct (String.eqb_spec k k'); [congruence | reflexivity].
  - destruct (String.eqb_spec k0 k) as [-> | Hk0]; cbn.
    + destruct (String.eqb_spec k k'); [congruence | reflexivity].
    + destruct (String.eqb_spec k0 k'); [reflexivity | exact IH].
Qed.

Lemma dict_set_keys {V : Type} (d : list (string * V)) (k : string) (v : V) :
  map fst (dict_set d k v)
  = if existsb (String.eqb k) (map fst d) then map fst d else map fst d ++ [k].
Proof.
  induction d as [| [k' v'] d IH]; cbn; [reflexivity |].
  rewrite (String.eqb_sym k k').
  destruct (String.eqb_spec k' k) as [-> | Hne]; cbn; [reflexivity |].
  rewrite IH. destruct (existsb (String.eqb k) (map fst d)); reflexivity.
Qed.

(** X7: the conditional assignment [if value: params[key] = value] stores
    the value under its key exactly when it is a non-empty string, leaves
    every other parameter as it was, and adds at most that one key, after
    the existing ones. *)
Theorem conditional_parameter_assignment
  (params : list (string * query_value)) (key : string) (value : option string) :
  dict_get (set_if_truthy params key value) key
  = (if truthy value then option_map QStr value else dict_get params key)
  /\ (forall other, other <> key ->
        dict_get (set_if_truthy params key value) other = dict_get params other)
  /\ map fst (set_if_truthy params key value)
     = (if truthy value && negb (existsb (String.eqb key) (map fst params))
        then map fst params ++ [key] else map fst params).
Proof.
  unfold set_if_truthy. destruct value as [s |]; cbn [truthy option_map andb].
  - destruct (negb (s =? "")%string); cbn [andb].
    + split; [apply dict_get_set_same |]. split.
      * intros other Hne. apply dict_get_set_other. exact Hne.
      * rewrite dict_set_keys.
        destruct (existsb (String.eqb key) (map fst params)); reflexivity.
    + repeat split.
  - repeat split.
Qed.

Lemma conditional_parameter_assignment_witness :
  dict_get (set_if_truthy [("offset", QInt 0)] "types" (Some "buy,sell")) "offset"
  = Some (QInt 0).
Proof.
  apply (proj1 (proj2 (conditional_parameter_assignment
                         [("offset", QInt 0)] "types" (Some "buy,sell")))).
  discriminate.
Defined.

(** X8: a filter supplied as a non-empty string is forwarded under its own
    name with exactly the supplied value, on GET /wallets/history ([types])
    and on GET /nfts/search (the four [filter_by_...] parameters), whatever
    the other filters are. *)
Theorem supplied_filters_are_forwarded
  (M : mode) (up : upstream) (offset limit : option Z) (s : string) :
  s <> "" ->
  (forall c,
      In c (snd (serve M (GetWalletHistory offset limit (Some s)) up)) ->
      sent c "types" = Some (QStr s))
  /\ (forall fc fb fs fm sort_by status c,
         In c (snd (serve M (SearchNfts offset limit fc fb fs fm sort_by status) up)) ->
         (fc = Some s -> sent c "filter_by_collections" = Some (QStr s))
         /\ (fb = Some s -> sent c "filter_by_backdrops" = Some (QStr s))
         /\ (fs = Some s -> sent c "filter_by_symbols" = Some (QStr s))
         /\ (fm = Some s -> sent c "filter_by_models" = Some (QStr s))).
Proof.
  intros Hs. assert (Htruthy : truthy (Some s) = true).
  { cbn. destruct (String.eqb_spec s ""); [contradiction | reflexivity]. }
  split.
  - intros c. cbn [serve].
    destruct (bind_int _ offset) as [o |]; [| intros []].
    destruct (bind_int _ limit) as [l |]; [| intros []].
    rewrite wallet_history_log. intros [<- | []]. unfold sent. cbn [call_params].
    destruct (conditional_parameter_assignment
                [("offset", QInt o); ("limit", QInt l)] "types" (Some s)) as [H _].
    rewrite H, Htruthy. reflexivity.
  - intros fc fb fs fm sort_by status c. cbn [serve].
    destruct (bind_int _ offset) as [o |]; [| intros []].
    destruct (bind_int _ limit) as [l |]; [| intros []].
    rewrite search_log. intros [<- | []]. unfold sent. cbn [call_params].
    repeat match goal with
           | |- _ /\ _ => split
           end; intros ->;
      repeat first
        [ rewrite (proj1 (conditional_parameter_assignment _ _ (Some s))), Htruthy;
          reflexivity
        | rewrite (proj1 (proj2 (conditional_parameter_assignment _ _ _)))
            by discriminate ].
Qed.

Lemma supplied_filters_are_forwarded_witness :
  sent {| call_method := GET; call_path := "/users/wallets/history";
          call_params := [("offset", QInt 0); ("limit", QInt 30);
                          ("types", QStr "buy,sell")];
          call_json := None |} "types"
  = Some (QStr "buy,sell").
Proof.
  refine (proj1 (supplied_filters_are_forwarded required_mode timing_out
                   None None "buy,sell" _) _ _).
  - discriminate.
  - cbn. left. reflexivity.
Defined.

(** ** Typed responses *)

Lemma validate_fields_keys (M : mode) (members : list (string * json))
  (fs : list (string * ty)) :
  forall out, validate_fields M members fs = Some out -> map fst out = map fst fs.
Proof.
  induction fs as [| [n t] fs IH]; cbn [validate_fields]; intros out Hval.
  - injection Hval as <-. reflexivity.
  - destruct (match dict_get members n with
              | Some x => validate M t x
              | None => if implicit_none M && allows_none t then Some JNull else None
              end) as [x' |]; [| discriminate].
    destruct (validate_fields M members fs) as [out' |]; [| discriminate].
    injection Hval as <-. cbn. f_equal. apply IH. reflexivity.
Qed.

(** Only a JSON object validates against a model, and it validates to an
    object. *)
Lemma validate_model_inv (M : mode) (fs : list (string * ty)) (v content : json) :
  validate M (TModel fs) v = Some content ->
  exists members out,
    v = JObj members /\ content = JObj out
    /\ validate_fields M members fs = Some out.
Proof.
  intros Hval. destruct v as [| | | | | | members]; try discriminate Hval.
  rewrite validate_model in Hval.
  destruct (validate_fields M members fs) as [out |] eqn:Hfs; [| discriminate].
  injection Hval as <-. exists members, out. repeat split. exact Hfs.
Qed.

Lemma json_response_inv (M : mode) (req : request) (up : upstream)
  (s : Z) (content : json) :
  fst (serve M req up) = JSONResponse s content ->
  s = 200 /\ exists c r v,
    snd (serve M req up) = [c] /\ up c = Responded r /\ decoded r = Some v
    /\ validate M (response_model (route_of req)) v = Some content.
Proof.
  destruct (serve_cases M req up) as [H | [c H]]; rewrite H; cbn [fst snd];
    [discriminate |].
  unfold render. destruct (up c) as [r | e] eqn:Hup; [| discriminate].
  destruct (is_accepted (route_of req) (status_code r)); [| discriminate].
  destruct (decoded r) as [v |] eqn:Hbody; [| discriminate].
  destruct (validate M (response_model (route_of req)) v) as [out |] eqn:Hval;
    [| discriminate].
  intros Hresp. injection Hresp as <- <-. split; [reflexivity |].
  exists c, r, v. repeat split; assumption.
Qed.

(** X9: on a route whose response model is a declared class, a successful
    response is a JSON object holding exactly the declared fields, in
    declaration order: whatever else the upstream object carries is not
    returned. *)
Theorem typed_response_has_exactly_the_declared_fields
  (M : mode) (req : request) (up : upstream) (fs : list (string * ty))
  (s : Z) (content : json) :
  response_model (route_of req) = TModel fs ->
  fst (serve M req up) = JSONResponse s content ->
  exists out, content = JObj out /\ map fst out = map fst fs.
Proof.
  intros Hmodel Hresp.
  destruct (json_response_inv M req up s content Hresp)
    as [_ [c [r [v [_ [_ [_ Hval]]]]]]].
  rewrite Hmodel in Hval.
  destruct (validate_model_inv M fs v content Hval) as [members [out [_ [-> Hfs]]]].
  exists out. split; [reflexivity |]. exact (validate_fields_keys M members fs out Hfs).
Qed.

Lemma typed_response_has_exactly_the_declared_fields_witness :
  exists out,
    JObj [("balance", JStr "1.50"); ("frozen_funds", JStr "0")] = JObj out
    /\ map fst out = ["balance"; "frozen_funds"].
Proof.
  apply (typed_response_has_exactly_the_declared_fields defaulting_mode
           GetWalletBalance (respond_with 200 (JObj balance_with_extras))
           (fields_of WalletBalance) 200
           (JObj [("balance", JStr "1.50"); ("frozen_funds", JStr "0")])).
  - reflexivity.
  - reflexivity.
Defined.

Lemma string_fields_validate (M : mode) (members : list (string * json))
  (strings : string -> string) (fs : list (string * ty)) :
  Forall (fun f => snd f = TStr) fs ->
  (forall name, In name (map fst fs) ->
                dict_get members name = Some (JStr (strings name))) ->
  validate_fields M members fs
  = Some (map (fun f => (fst f, JStr (strings (fst f)))) fs).
Proof.
  induction fs as [| [n t] fs IH]; intros Hstr Hget; [reflexivity |].
  inversion Hstr as [| ? ? Ht Hrest]; subst. cbn in Ht. subst t.
  cbn [validate_fields map fst].
  rewrite (Hget n) by (left; reflexivity). cbn [validate].
  rewrite IH; [reflexivity | exact Hrest |].
  intros name Hin. apply Hget. right. exact Hin.
Qed.

(** X10: on the routes whose model has only string fields (/config,
    /wallets/limits, /wallets/balance), an upstream 200 object that holds a
    string under every declared name is answered with exactly those fields
    and those strings, in declaration order, whatever the order and the
    further members of the upstream object. *)
Theorem string_models_return_declared_strings
  (M : mode) (req : request) (up : upstream) (c : call) (r : response)
  (members : list (string * json)) (strings : string -> string) :
  In (route_of req) [Config; WalletsLimits; WalletsBalance] ->
  In c (snd (serve M req up)) ->
  up c = Responded r ->
  status_code r = 200 ->
  decoded r = Some (JObj members) ->
  (forall name, In name (map fst (fields_of (response_model (route_of req)))) ->
                dict_get members name = Some (JStr (strings name))) ->
  fst (serve M req up)
  = JSONResponse 200
      (JObj (map (fun f => (fst f, JStr (strings (fst f))))
               (fields_of (response_model (route_of req))))).
Proof.
  intros Hroute Hin Hup Hstatus Hbody Hget.
  rewrite (serve_inv M req up c Hin). cbn [fst]. unfold render.
  rewrite Hup, Hstatus, accepts_200, Hbody.
  assert (Hmodel : response_model (route_of req)
                   = TModel (fields_of (response_model (route_of req)))
                   /\ Forall (fun f => snd f = TStr)
                        (fields_of (response_model (route_of req)))).
  { destruct Hroute as [<- | [<- | [<- | []]]]; split;
      try reflexivity; cbn; repeat constructor. }
  destruct Hmodel as [Hmodel Hstr]. rewrite Hmodel at 1.
  rewrite validate_model, (string_fields_validate M members strings _ Hstr Hget).
  reflexivity.
Qed.

Lemma string_models_return_declared_strings_witness :
  fst (serve defaulting_mode GetWalletBalance
         (respond_with 200 (JObj balance_with_extras)))
  = JSONResponse 200 (JObj [("balance", JStr "1.50"); ("frozen_funds", JStr "0")]).
Proof.
  apply (string_models_return_declared_strings defaulting_mode GetWalletBalance
           (respond_with 200 (JObj balance_with_extras)) balance_call
           {| status_code := 200; decoded := Some (JObj balance_with_extras) |}
           balance_with_extras
           (fun name => if String.eqb name "balance" then "1.50" else "0")).
  - cbn. tauto.
  - cbn. left. reflexivity.
  - reflexivity.
  - reflexivity.
  - reflexivity.
  - intros name [<- | [<- | []]]; reflexivity.
Defined.

Lemma required_rejects_null (M : mode) (t : ty) :
  allows_none t = false -> validate M t JNull = None.
Proof.
  destruct t; cbn; intros H; try reflexivity; discriminate H.
Qed.

Lemma validate_fields_null_required (M : mode) (members : list (string * json))
  (fs : list (string * ty)) (name : string) (t : ty) :
  In (name, t) fs ->
  allows_none t = false ->
  dict_get members name = Some JNull ->
  validate_fields M members fs = None.
Proof.
  intros Hin Hreq Hnull. induction fs as [| [n t0] fs IH]; [destruct Hin |].
  cbn [validate_fields]. destruct Hin as [Heq | Hin].
  - injection Heq as -> ->. rewrite Hnull, (required_rejects_null M t Hreq).
    reflexivity.
  - rewrite (IH Hin).
    destruct (match dict_get members n with
              | Some x => validate M t0 x
              | None => if implicit_none M && allows_none t0 then Some JNull else None
              end); reflexivity.
Qed.

(** X11: on a route whose response model is a declared class, an upstream
    200 object that holds null under a field not annotated [Optional] or
    [Any] is answered with the internal server error. *)
Theorem null_in_required_field_is_internal_server_error
  (M : mode) (req : request) (up : upstream) (c : call) (r : response)
  (fs : list (string * ty)) (members : list (string * json))
  (name : string) (t : ty) :
  response_model (route_of req) = TModel fs ->
  In (name, t) fs ->
  allows_none t = false ->
  In c (snd (serve M req up)) ->
  up c = Responded r ->
  status_code r = 200 ->
  decoded r = Some (JObj members) ->
  dict_get members name = Some JNull ->
  serve M req up = (InternalServerError, [c]).
Proof.
  intros Hmodel Hfield Hreq Hin Hup Hstatus Hbody Hnull.
  rewrite (serve_inv M req up c Hin). unfold render.
  rewrite Hup, Hstatus, accepts_200, Hbody, Hmodel, validate_model.
  rewrite (validate_fields_null_required M members fs name t Hfield Hreq Hnull).
  reflexivity.
Qed.

Lemma null_in_required_field_is_internal_server_error_witness :
  serve defaulting_mode GetWalletBalance
    (respond_with 200 (JObj [("balance", JNull); ("frozen_funds", JStr "0")]))
  = (InternalServerError, [balance_call]).
Proof.
  apply (null_in_required_field_is_internal_server_error defaulting_mode
           GetWalletBalance
           (respond_with 200 (JObj [("balance", JNull); ("frozen_funds", JStr "0")]))
           balance_call
           {| status_code := 200;
              decoded := Some (JObj [("balance", JNull); ("frozen_funds", JStr "0")]) |}
           (fields_of WalletBalance)
           [("balance", JNull); ("frozen_funds", JStr "0")] "balance" TStr).
  - reflexivity.
  - cbn. left. reflexivity.
  - reflexivity.
  - cbn. left. reflexivity.
  - reflexivity.
  - reflexivity.
  - reflexivity.
  - reflexivity.
Defined.

(** ** Lists *)

Lemma traverse_Forall2 {A B : Type} (f : A -> option B) (l : list A) :
  forall out, traverse f l = Some out -> Forall2 (fun x y => f x = Some y) l out.
Proof.
  induction l as [| x l IH]; cbn [traverse]; intros out H.
  - injection H as <-. constructor.
  - destruct (f x) as [y |] eqn:Hx; [| discriminate].
    destruct (traverse f l) as [ys |]; [| discriminate].
    injection H as <-. constructor; [exact Hx | apply IH; reflexivity].
Qed.

Lemma traverse_none {A B : Type} (f : A -> option B) (l : list A) :
  traverse f l = None <-> exists x, In x l /\ f x = None.
Proof.
  induction l as [| x l IH]; cbn [traverse].
  - split; [discriminate | intros [x [[] _]]].
  - destruct (f x) as [y |] eqn:Hx.
    + destruct (traverse f l) as [ys |].
      * split; [discriminate |]. intros [z [[<- | Hz] Hnone]]; [congruence |].
        assert (Habs : Some ys = None) by (apply IH; exists z; split; assumption).
        discriminate Habs.
      * split; [| reflexivity]. intros _.
        destruct (proj1 IH eq_refl) as [z [Hz Hnone]].
        exists z. split; [right; exact Hz | exact Hnone].
    + split; [| reflexivity]. intros _. exists x. split; [left; reflexivity | exact Hx].
Qed.

Lemma validate_list (M : mode) (t : ty) (items : list json) :
  validate M (TList t) (JArr items)
  = option_map JArr (traverse (validate M t) items).
Proof. reflexivity. Qed.

(** X12: on the routes that wrap a list in an object (/wallets/history,
    /nfts, /users/actions) the list is all or nothing: if one item of the
    upstream list fails its model the whole answer is the internal server
    error; otherwise the answer holds one validated item per upstream item,
    in the upstream order. *)
Theorem listing_is_all_or_nothing
  (M : mode) (req : request) (up : upstream) (c : call) (r : response)
  (key : string) (t : ty) (members : list (string * json)) (items : list json) :
  response_model (route_of req) = TModel [(key, TList t)] ->
  In c (snd (serve M req up)) ->
  up c = Responded r ->
  status_code r = 200 ->
  decoded r = Some (JObj members) ->
  dict_get members key = Some (JArr items) ->
  ((exists x, In x items /\ validate M t x = None)
   /\ fst (serve M req up) = InternalServerError)
  \/ (exists out,
         Forall2 (fun x y => validate M t x = Some y) items out
         /\ fst (serve M req up) = JSONResponse 200 (JObj [(key, JArr out)])).
Proof.
  intros Hmodel Hin Hup Hstatus Hbody Hget.
  rewrite (serve_inv M req up c Hin). cbn [fst]. unfold render.
  rewrite Hup, Hstatus, accepts_200, Hbody, Hmodel, validate_model.
  cbn [validate_fields]. rewrite Hget, validate_list.
  destruct (traverse (validate M t) items) as [out |] eqn:Htr; cbn.
  - right. exists out. split; [apply traverse_Forall2; exact Htr | reflexivity].
  - left. split; [apply traverse_none; exact Htr | reflexivity].
Qed.

Lemma listing_is_all_or_nothing_witness :
  ((exists x, In x [JNull] /\ validate required_mode NFTItem x = None)
   /\ fst (serve required_mode ListNfts
             (respond_with 200 (JObj [("nfts", JArr [JNull])])))
      = InternalServerError)
  \/ (exists out,
         Forall2 (fun x y => validate required_mode NFTItem x = Some y) [JNull] out
         /\ fst (serve required_mode ListNfts
                   (respond_with 200 (JObj [("nfts", JArr [JNull])])))
            = JSONResponse 200 (JObj [("nfts", JArr out)])).
Proof.
  apply (listing_is_all_or_nothing required_mode ListNfts
           (respond_with 200 (JObj [("nfts", JArr [JNull])])) nfts_call
           {| status_code := 200;
              decoded := Some (JObj [("nfts", JArr [JNull])]) |}
           "nfts" NFTItem [("nfts", JArr [JNull])] [JNull]).
  - reflexivity.
  - cbn. left. reflexivity.
  - reflexivity.
  - reflexivity.
  - reflexivity.
  - reflexivity.
Defined.

Lemma backdrops_log (M : mode) (t : ty) (up : upstream) :
  snd (respond M t get_backdrops up) = [backdrops_call].
Proof.
  unfold get_backdrops, client_get. apply respond_log.
  intros. apply guard_keeps_log.
Qed.

(** X13: GET /collections/backdrops returns a bare list: an upstream 200
    body that is not a JSON array is answered with the internal server
    error, the empty array with the empty array, and an array otherwise
    with one validated backdrop per upstream item in order, or with the
    internal server error if one item fails the Backdrop model. *)
Theorem backdrops_is_a_list
  (M : mode) (up : upstream) (r : response) (v : json) :
  up backdrops_call = Responded r ->
  status_code r = 200 ->
  decoded r = Some v ->
  ((forall items, v <> JArr items) ->
   fst (serve M GetBackdrops up) = InternalServerError)
  /\ (v = JArr [] -> fst (serve M GetBackdrops up) = JSONResponse 200 (JArr []))
  /\ (forall items, v = JArr items ->
        ((exists x, In x items /\ validate M Backdrop x = None)
         /\ fst (serve M GetBackdrops up) = InternalServerError)
        \/ (exists out,
               Forall2 (fun x y => validate M Backdrop x = Some y) items out
               /\ fst (serve M GetBackdrops up) = JSONResponse 200 (JArr out))).
Proof.
  intros Hup Hstatus Hbody.
  assert (Hin : In backdrops_call (snd (serve M GetBackdrops up))).
  { cbn [serve]. rewrite backdrops_log. left. reflexivity. }
  rewrite (serve_inv M GetBackdrops up backdrops_call Hin). cbn [fst route_of].
  unfold render. rewrite Hup, Hstatus, accepts_200, Hbody.
  cbn [response_model]. split; [| split].
  - intros Hnot. destruct v; try reflexivity. exfalso. exact (Hnot items eq_refl).
  - intros ->. reflexivity.
  - intros items ->. rewrite validate_list.
    destruct (traverse (validate M Backdrop) items) as [out |] eqn:Htr; cbn.
    + right. exists out. split; [apply traverse_Forall2; exact Htr | reflexivity].
    + left. split; [apply traverse_none; exact Htr | reflexivity].
Qed.

Lemma backdrops_is_a_list_witness :
  fst (serve required_mode GetBackdrops (respond_with 200 (JObj [])))
  = InternalServerError.
Proof.
  refine (proj1 (backdrops_is_a_list required_mode (respond_with 200 (JObj []))
                   {| status_code := 200; decoded := Some (JObj []) |} (JObj [])
                   eq_refl eq_refl eq_refl) _).
  intros items. discriminate.
Defined.

(** ** Request bodies *)

Lemma withdraw_log (M : mode) (t : ty) (payload : json) (up : upstream) :
  snd (respond M t (withdraw_nfts payload) up) = [withdraw_call payload].
Proof.
  unfold withdraw_nfts, client_post. apply respond_log.
  intros. apply guard_keeps_log.
Qed.

Lemma string_entries_pass (M : mode) (ids : list string) :
  traverse (validate M TStr) (map JStr ids) = Some (map JStr ids).
Proof.
  induction ids as [| s ids IH]; cbn; [reflexivity |].
  cbn in IH. rewrite IH. reflexivity.
Qed.

(** X14: on POST /nfts/withdraw a body whose gift_ids is a list of strings
    is accepted, and the body posted to /nfts/withdraw is exactly the
    object {"gift_ids": [...]} with those strings in order; further
    members of the local body are not forwarded. *)
Theorem withdraw_forwards_gift_ids
  (M : mode) (up : upstream) (members : list (string * json)) (ids : list string) :
  dict_get members "gift_ids" = Some (JArr (map JStr ids)) ->
  snd (serve M (WithdrawNfts (JObj members)) up)
  = [withdraw_call (JObj [("gift_ids", JArr (map JStr ids))])].
Proof.
  intros Hget.
  assert (Hval : validate M WithdrawPayload (JObj members)
                 = Some (JObj [("gift_ids", JArr (map JStr ids))])).
  { unfold WithdrawPayload. rewrite validate_model. cbn [validate_fields].
    rewrite Hget, validate_list, string_entries_pass. reflexivity. }
  cbn [serve]. rewrite Hval. apply withdraw_log.
Qed.

Lemma withdraw_forwards_gift_ids_witness :
  snd (serve required_mode
         (WithdrawNfts (JObj [("note", JStr "x"); ("gift_ids", JArr [JStr "g1"; JStr "g2"])]))
         timing_out)
  = [withdraw_call (JObj [("gift_ids", JArr [JStr "g1"; JStr "g2"])])].
Proof.
  apply (withdraw_forwards_gift_ids required_mode timing_out
           [("note", JStr "x"); ("gift_ids", JArr [JStr "g1"; JStr "g2"])]
           ["g1"; "g2"] eq_refl).
Defined.

Lemma list_payload_rejected (M : mode) (key : string) (t : ty)
  (members : list (string * json)) :
  (forall items, dict_get members key <> Some (JArr items)) ->
  validate M (TModel [(key, TList t)]) (JObj members) = None.
Proof.
  intros Hnot. rewrite validate_model. cbn [validate_fields].
  destruct (dict_get members key) as [x |].
  - destruct x; try reflexivity. exfalso. exact (Hnot items eq_refl).
  - cbn [allows_none]. rewrite andb_false_r. reflexivity.
Qed.

Lemma list_payload_with_null_rejected (M : mode) (key : string) (t : ty)
  (members : list (string * json)) (items : list json) :
  allows_none t = false ->
  dict_get members key = Some (JArr items) ->
  In JNull items ->
  validate M (TModel [(key, TList t)]) (JObj members) = None.
Proof.
  intros Hreq Hget Hnull. rewrite validate_model. cbn [validate_fields].
  rewrite Hget, validate_list.
  assert (Htr : traverse (validate M t) items = None).
  { apply traverse_none. exists JNull. split; [exact Hnull |].
    apply required_rejects_null. exact Hreq. }
  rewrite Htr. reflexivity.
Qed.

(** X15: on the two POST routes a malformed JSON object never reaches the
    upstream: an object that lacks the list (nft_details for buy, gift_ids
    for withdraw), that holds something other than an array under it, or
    whose array holds a null, is answered with the validation error and no
    upstream call. *)
Theorem malformed_payload_is_rejected
  (M : mode) (up : upstream) (members : list (string * json)) :
  ((forall items, dict_get members "nft_details" <> Some (JArr items)) ->
   serve M (BuyNfts (JObj members)) up = (RequestValidationError, []))
  /\ (forall items, dict_get members "nft_details" = Some (JArr items) ->
        In JNull items ->
        serve M (BuyNfts (JObj members)) up = (RequestValidationError, []))
  /\ ((forall items, dict_get members "gift_ids" <> Some (JArr items)) ->
      serve M (WithdrawNfts (JObj members)) up = (RequestValidationError, []))
  /\ (forall items, dict_get members "gift_ids" = Some (JArr items) ->
        In JNull items ->
        serve M (WithdrawNfts (JObj members)) up = (RequestValidationError, [])).
Proof.
  split; [| split; [| split]]; intros; cbn [serve].
  - unfold BuyPayload. rewrite list_payload_rejected by assumption. reflexivity.
  - unfold BuyPayload.
    rewrite (list_payload_with_null_rejected M "nft_details" TDict members items)
      by (reflexivity || assumption).
    reflexivity.
  - unfold WithdrawPayload. rewrite list_payload_rejected by assumption. reflexivity.
  - unfold WithdrawPayload.
    rewrite (list_payload_with_null_rejected M "gift_ids" TStr members items)
      by (reflexivity || assumption).
    reflexivity.
Qed.

Lemma malformed_payload_is_rejected_witness :
  serve required_mode (BuyNfts (JObj [("nft_details", JStr "abc")])) timing_out
  = (RequestValidationError, [])
  /\ serve required_mode (WithdrawNfts (JObj [("gift_ids", JArr [JStr "g1"; JNull])]))
       timing_out
     = (RequestValidationError, []).
Proof.
  split.
  - refine (proj1 (malformed_payload_is_rejected required_mode timing_out
                     [("nft_details", JStr "abc")]) _).
    intros items. discriminate.
  - refine (proj2 (proj2 (proj2 (malformed_payload_is_rejected required_mode
                     timing_out [("gift_ids", JArr [JStr "g1"; JNull])])))
              [JStr "g1"; JNull] eq_refl _).
    right. left. reflexivity.
Defined.
